(** * URL-Notes: the placeholder icon generator [create_icons.py]

    A shallow embedding of the script's two functions, [create_icon] and
    [main], together with the parts of Python and of Pillow they rest on:

    - Python integers are [Z]; [//] with a positive divisor is [Z.div]
      (floor), [max] is [Z.max];
    - Python floats are IEEE binary64 values, modelled exactly as
      [mantissa * 2 ^ exponent] with round-to-nearest-even ([Binary64]);
      [int * float] converts the integer first and may raise
      [OverflowError], [int(x)] truncates toward zero;
    - exceptions are the [Raise] branch of the [result] monad;
    - a Pillow image is its size together with the sequence of fills painted
      on the transparent background ([Pillow.Image]); its raster is read
      back with [Pillow.getpixel].  How Pillow rasterises the arcs of a
      rounded rectangle is left to the [Pillow.Rasterizer] interface;
    - the file system and standard output touched by [main] are the
      [World]; whether the operating system lets a call succeed is the
      [Env].

    Left out: the memory an image takes ([Image.new] returns the bitmap
    whenever it accepts the size; a [MemoryError] is the machine's
    business), the PNG encoding (a written file holds the image itself),
    and what a failed [save] may leave on disk (here: nothing). *)

From Stdlib Require Import ZArith Lia Bool List Ascii.
From Stdlib Require Floats.SpecFloat.
From stdpp Require Import base option list gmap strings pretty.

Local Open Scope Z_scope.

(** ** Exceptions and the error monad *)

Inductive Exn : Type :=
  | OverflowError (msg : string)
  | ValueError (msg : string)
  | OSError (msg : string).

(** [str(e)] as interpolated by an f-string. *)
Definition str_exn (e : Exn) : string :=
  match e with
  | OverflowError msg | ValueError msg | OSError msg => msg
  end.

Inductive result (A : Type) : Type :=
  | Ok (a : A)
  | Raise (e : Exn).
Arguments Ok {A} a.
Arguments Raise {A} e.

#[global] Instance result_ret : MRet result := fun A a => Ok a.
#[global] Instance result_bind : MBind result := fun A B f m =>
  match m with
  | Ok a => f a
  | Raise e => Raise e
  end.

Definition is_ok {A} (r : result A) : bool :=
  match r with Ok _ => true | Raise _ => false end.

(** ** Python control flow *)

(** [range(n)] *)
Definition range (n : nat) : list Z := map Z.of_nat (seq 0 n).

(** [for x in xs: body], threading the state [s] and stopping at the first
    exception. *)
Fixpoint for_ {S : Type} (xs : list Z) (body : S -> Z -> result S) (s : S)
    : result S :=
  match xs with
  | [] => Ok s
  | x :: xs' => s' ← body s x; for_ xs' body s'
  end.

(** [try: body / except Exception as e: handler(e)], where the body's
    effects on [s] are undone by the model when it raises. *)
Definition try_except {S : Type} (body : result S) (handler : Exn -> S) : S :=
  match body with
  | Ok s => s
  | Raise e => handler e
  end.

(** ** IEEE binary64, as far as the script uses it *)

Module Binary64.

(** A finite value is [m * 2 ^ e]. *)
Inductive float : Type :=
  | Finite (m e : Z)
  | Infinity (negative : bool)
  | NaN.

Definition prec : Z := 53.
Definition emax : Z := 1024.
Definition emin : Z := -1074.

(** Python's [int.bit_length]. *)
Definition bit_length (a : Z) : Z :=
  if a =? 0 then 0 else Z.log2 (Z.abs a) + 1.

(** The integer nearest to [a / 2 ^ s], ties to even ([0 <= a], [0 < s]). *)
Definition round_half_even (a s : Z) : Z :=
  let q := Z.shiftr a s in
  let r := a - Z.shiftl q s in
  let half := Z.shiftl 1 (s - 1) in
  if (half <? r) || ((r =? half) && Z.odd q) then q + 1 else q.

(** The binary64 value nearest to the exact number [m * 2 ^ e]: at most
    [prec] significant bits, no bit below [2 ^ emin], infinity from
    [2 ^ emax] on. *)
Definition round_binary64 (m e : Z) : float :=
  let s := Z.max (bit_length m - prec) (emin - e) in
  let '(m', e') :=
    if s <=? 0 then (m, e)
    else (Z.sgn m * round_half_even (Z.abs m) s, e + s) in
  if emax <? bit_length m' + e' then Infinity (m <? 0) else Finite m' e'.

(** [float(n)] for a Python integer. *)
Definition float_of_int (n : Z) : result float :=
  match round_binary64 n 0 with
  | Finite m e => Ok (Finite m e)
  | _ => Raise (OverflowError "int too large to convert to float")
  end.

Definition fmul (x y : float) : float :=
  match x, y with
  | Finite m1 e1, Finite m2 e2 => round_binary64 (m1 * m2) (e1 + e2)
  | Infinity s, Infinity t => Infinity (xorb s t)
  | Infinity s, Finite m _ | Finite m _, Infinity s =>
      if m =? 0 then NaN else Infinity (xorb s (m <? 0))
  | NaN, _ | _, NaN => NaN
  end.

(** [int(x)]: truncation toward zero. *)
Definition int_of_float (x : float) : result Z :=
  match x with
  | Finite m e =>
      Ok (if 0 <=? e then m * 2 ^ e else Z.quot m (2 ^ (- e)))
  | Infinity _ =>
      Raise (OverflowError "cannot convert float infinity to integer")
  | NaN => Raise (ValueError "cannot convert float NaN to integer")
  end.

(** [int(n * c)] for an integer [n] and a float [c], the one shape in
    which the script uses floats. *)
Definition int_mul (n : Z) (c : float) : result Z :=
  x ← float_of_int n; int_of_float (fmul x c).

(** The four literals, as the doubles Python reads them as. *)
Definition f0_8 : float := Finite 7205759403792794 (-53).  (* 0x1.999999999999ap-1 *)
Definition f0_3 : float := Finite 5404319552844595 (-54).  (* 0x1.3333333333333p-2 *)
Definition f0_7 : float := Finite 6305039478318694 (-53).  (* 0x1.6666666666666p-1 *)
Definition f0_15 : float := Finite 5404319552844595 (-55). (* 0x1.3333333333333p-3 *)

(** The same computation through the Standard Library's specification of
    IEEE arithmetic, used to cross-check the model above. *)
Definition to_spec (x : float) : SpecFloat.spec_float :=
  match x with
  | Finite (Zpos p) e => SpecFloat.S754_finite false p e
  | Finite (Zneg p) e => SpecFloat.S754_finite true p e
  | Finite Z0 _ => SpecFloat.S754_zero false
  | Infinity s => SpecFloat.S754_infinity s
  | NaN => SpecFloat.S754_nan
  end.

Definition spec_trunc (x : SpecFloat.spec_float) : option Z :=
  match x with
  | SpecFloat.S754_zero _ => Some 0
  | SpecFloat.S754_finite s m e =>
      let a := if 0 <=? e then Zpos m * 2 ^ e else Zpos m / 2 ^ (- e) in
      Some (if s then - a else a)
  | _ => None
  end.

Definition spec_int_mul (n : Z) (c : float) : option Z :=
  spec_trunc
    (SpecFloat.SFmul prec emax
       (SpecFloat.binary_normalize prec emax n 0 false) (to_spec c)).

Definition result_value {A} (r : result A) : option A :=
  match r with Ok a => Some a | Raise _ => None end.

Definition agrees_with_spec (c : float) (n : Z) : bool :=
  bool_decide (result_value (int_mul n c) = spec_int_mul n c).

End Binary64.

(** ** Pillow: images and the two drawing calls *)

Module Pillow.

(** A colour is the tuple [(r, g, b, a)]. *)
Definition RGBA : Type := Z * Z * Z * Z.

Definition alpha (c : RGBA) : Z := c.2.

Definition rgba_eqb (c d : RGBA) : bool := bool_decide (c = d).

(** A bounding box is the list [[x0, y0, x1, y1]]; both corners belong to
    the box. *)
Definition BBox : Type := Z * Z * Z * Z.

Definition inside (box : BBox) (x y : Z) : bool :=
  let '(x0, y0, x1, y1) := box in
  (x0 <=? x) && (x <=? x1) && (y0 <=? y) && (y <=? y1).

Inductive Shape : Type :=
  | RoundedRectangle (box : BBox) (radius : Z)
  | Rectangle (box : BBox).

Definition bbox (s : Shape) : BBox :=
  match s with
  | RoundedRectangle box _ | Rectangle box => box
  end.

(** One filled shape, as painted by one drawing call. *)
Record Fill : Type := { shape : Shape; ink : RGBA }.

(** An image: its size, the colour it was created with, and the fills
    painted on it since, oldest first. *)
Record Image : Type :=
  { width : Z; height : Z; background : RGBA; painted : list Fill }.

(** The sides of a bitmap are C [int]s. *)
Definition INT_MAX : Z := 2 ^ 31 - 1.
Definition INT_MIN : Z := - 2 ^ 31.

(** A Python integer handed to the C library as an [int] (format [i] of
    the argument parser), with the messages of a platform whose C [long]
    has 64 bits. *)
Definition c_int (n : Z) : result Z :=
  if (n <? - 2 ^ 63) || (2 ^ 63 <=? n)
  then Raise (OverflowError "Python int too large to convert to C long")
  else if INT_MAX <? n
  then Raise (OverflowError "signed integer is greater than maximum")
  else if n <? INT_MIN
  then Raise (OverflowError "signed integer is less than minimum")
  else Ok n.

(** [Image.new('RGBA', size, color)]: a negative side is refused by
    [Image.new] itself, a side above [INT_MAX] when the sides are handed
    to the C library that allocates the bitmap. *)
Definition new (size : Z * Z) (color : RGBA) : result Image :=
  if (size.1 <? 0) || (size.2 <? 0)
  then Raise (ValueError "Width and height must be >= 0")
  else
    xsize ← c_int size.1;
    ysize ← c_int size.2;
    mret {| width := xsize; height := ysize; background := color;
            painted := [] |}.

(** Which pixels of its bounding box a rounded rectangle covers is
    Pillow's business; all that is used is that it stays in the box. *)
Class Rasterizer : Type :=
  { rounded_cover : BBox -> Z -> Z -> Z -> bool;
    rounded_cover_inside : forall box radius x y,
      rounded_cover box radius x y = true -> inside box x y = true }.

Definition covers `{Rasterizer} (s : Shape) (x y : Z) : bool :=
  match s with
  | RoundedRectangle box radius => rounded_cover box radius x y
  | Rectangle box => inside box x y
  end.

(** A later fill overwrites an earlier one (mode RGBA, no blending). *)
Definition paint `{Rasterizer} (x y : Z) (c : RGBA) (f : Fill) : RGBA :=
  if covers (shape f) x y then ink f else c.

(** [img.getpixel((x, y))] for a pixel of the image. *)
Definition getpixel `{Rasterizer} (img : Image) (x y : Z) : option RGBA :=
  if (0 <=? x) && (x <? width img) && (0 <=? y) && (y <? height img)
  then Some (fold_left (paint x y) (painted img) (background img))
  else None.

(** Both drawing calls take a box with [x1 >= x0] and [y1 >= y0], as
    Pillow documents them, and raise [ValueError] on any other. *)
Definition check_box (box : BBox) : result unit :=
  let '(x0, y0, x1, y1) := box in
  if x1 <? x0 then Raise (ValueError "x1 must be greater than or equal to x0")
  else if y1 <? y0 then Raise (ValueError "y1 must be greater than or equal to y0")
  else Ok ().

Definition draw (img : Image) (f : Fill) : Image :=
  {| width := width img; height := height img;
     background := background img; painted := painted img ++ [f] |}.

(** [draw.rounded_rectangle(box, radius=radius, fill=fill)] *)
Definition rounded_rectangle (img : Image) (box : BBox) (radius : Z)
    (fill : RGBA) : result Image :=
  _ ← check_box box;
  mret (draw img {| shape := RoundedRectangle box radius; ink := fill |}).

(** [draw.rectangle(box, fill=fill)] *)
Definition rectangle (img : Image) (box : BBox) (fill : RGBA) : result Image :=
  _ ← check_box box;
  mret (draw img {| shape := Rectangle box; ink := fill |}).

(** A rasterizer to run the model with: the box with its four corners cut
    along a circle of the given radius. *)
Definition disc_cover (box : BBox) (radius x y : Z) : bool :=
  let '(x0, y0, x1, y1) := box in
  let dx := Z.max 0 (Z.max (x0 + radius - x) (x - (x1 - radius))) in
  let dy := Z.max 0 (Z.max (y0 + radius - y) (y - (y1 - radius))) in
  inside box x y && (dx * dx + dy * dy <=? radius * radius).

Definition disc_rasterizer : Rasterizer :=
  {| rounded_cover := disc_cover;
     rounded_cover_inside := fun box radius x y =>
       match box with
       | (x0, y0, x1, y1) => fun H => proj1 (andb_prop _ _ H)
       end |}.

End Pillow.

(** ** [create_icon] *)

Module CreateIcons.
Import Binary64 Pillow.

Definition transparent : RGBA := (0, 0, 0, 0).
Definition ios_blue : RGBA := (0, 122, 255, 255).
Definition white : RGBA := (255, 255, 255, 255).

(** The local variables of [create_icon], each as the function of [size]
    (and of the loop index) that its assignment computes. *)

(* margin = max(1, size // 8) *)
Definition margin (size : Z) : Z := Z.max 1 (size / 8).

(* radius=max(2, size // 6) *)
Definition radius (size : Z) : Z := Z.max 2 (size / 6).

(* note_margin = max(2, size // 4) *)
Definition note_margin (size : Z) : Z := Z.max 2 (size / 4).

(* note_width = size - (note_margin * 2) *)
Definition note_width (size : Z) : Z := size - note_margin size * 2.

(* note_height = int(note_width * 0.8) *)
Definition note_height (size : Z) : result Z := int_mul (note_width size) f0_8.

(* note_x = note_margin *)
Definition note_x (size : Z) : Z := note_margin size.

(* note_y = (size - note_height) // 2 *)
Definition note_y (size : Z) : result Z :=
  note_height ← note_height size; mret ((size - note_height) / 2).

(* line_height = max(1, size // 16) *)
Definition line_height (size : Z) : Z := Z.max 1 (size / 16).

(* line_spacing = max(2, size // 8) *)
Definition line_spacing (size : Z) : Z := Z.max 2 (size / 8).

(* line_width = int(note_width * 0.7) *)
Definition line_width (size : Z) : result Z := int_mul (note_width size) f0_7.

(* line_x = note_x + int(note_width * 0.15) *)
Definition line_x (size : Z) : result Z :=
  t ← int_mul (note_width size) f0_15; mret (note_x size + t).

(* line_y = note_y + int(note_height * 0.3) + (i * line_spacing) *)
Definition line_y (size i : Z) : result Z :=
  note_y ← note_y size;
  note_height ← note_height size;
  t ← int_mul note_height f0_3;
  mret (note_y + t + i * line_spacing size).

(* line_y + line_height < note_y + note_height, the test of the [if] in
   iteration [i] *)
Definition line_fits (size i : Z) : result bool :=
  line_y ← line_y size i;
  note_y ← note_y size;
  note_height ← note_height size;
  mret (line_y + line_height size <? note_y + note_height).

Definition create_icon (size : Z) : result Image :=
  (* Create image with transparent background *)
  img ← new (size, size) transparent;
  (* Draw rounded rectangle background *)
  let margin := margin size in
  img ← rounded_rectangle img
          (margin, margin, size - margin, size - margin)
          (radius size) ios_blue;
  (* Draw note icon *)
  let note_width := note_width size in
  note_height ← note_height size;
  let note_x := note_x size in
  note_y ← note_y size;
  (* Note background *)
  img ← rectangle img
          (note_x, note_y, note_x + note_width, note_y + note_height) white;
  (* Note lines (for larger icons) *)
  if 32 <=? size then
    let line_height := line_height size in
    line_width ← line_width size;
    line_x ← line_x size;
    for_ (range 3) (fun img i =>
      line_y ← line_y size i;
      if line_y + line_height <? note_y + note_height then
        rectangle img
          (line_x, line_y, line_x + line_width, line_y + line_height)
          ios_blue
      else Ok img) img
  else Ok img.

(** *** Reading an icon back *)

(** The accent lines of an icon: its plain rectangles in badge colour. *)
Definition is_accent_line (f : Fill) : bool :=
  match shape f with
  | Rectangle _ => rgba_eqb (ink f) ios_blue
  | RoundedRectangle _ _ => false
  end.

Definition accent_lines (img : Image) : list Fill :=
  List.filter is_accent_line (painted img).

(** The integers [lo, lo + 1, ..., hi]. *)
Definition interval (lo hi : Z) : list Z :=
  map (fun k => lo + Z.of_nat k) (seq 0 (Z.to_nat (hi + 1 - lo))).

(** The pixels of column [x] from row [y0] down to row [y1]. *)
Definition column `{Rasterizer} (img : Image) (x y0 y1 : Z) : list (option RGBA) :=
  map (getpixel img x) (interval y0 y1).

(** The number of maximal runs of pixels equal to [c] in a list. *)
Fixpoint runs (c : RGBA) (inside_run : bool) (l : list (option RGBA)) : nat :=
  match l with
  | [] => 0
  | p :: l' =>
      if bool_decide (p = Some c)
      then (if inside_run then 0 else 1) + runs c true l'
      else runs c false l'
  end%nat.

(** The number of blue bands that column [x] crosses between rows [y0]
    and [y1]. *)
Definition blue_bands `{Rasterizer} (img : Image) (x y0 y1 : Z) : nat :=
  runs ios_blue false (column img x y0 y1).

(** The four corner pixels of a [size] by [size] image. *)
Definition corners (size : Z) : list (Z * Z) :=
  [(0, 0); (0, size - 1); (size - 1, 0); (size - 1, size - 1)].

(** The pixel [(x, y)] lies outside the bounding box of the fill. *)
Definition misses (x y : Z) (f : Fill) : bool :=
  negb (inside (bbox (shape f)) x y).



End CreateIcons.

(** ** The layout as the specification words it

    These definitions follow the specification's formulas, not the code:
    they are what [create_icon] is compared with.  The arithmetic is exact:
    [floor (w * 0.8)] is the floor of the rational number [8 w / 10]. *)

Module Spec.
Import Pillow.

Definition margin (size : Z) : Z := Z.max 1 (size / 8).
Definition radius (size : Z) : Z := Z.max 2 (size / 6).
Definition note_margin (size : Z) : Z := Z.max 2 (size / 4).
Definition note_width (size : Z) : Z := size - 2 * note_margin size.
Definition note_height (size : Z) : Z := note_width size * 8 / 10.
Definition note_x (size : Z) : Z := note_margin size.
Definition note_y (size : Z) : Z := (size - note_height size) / 2.
Definition line_height (size : Z) : Z := Z.max 1 (size / 16).
Definition line_spacing (size : Z) : Z := Z.max 2 (size / 8).
Definition line_y (size i : Z) : Z :=
  note_y size + note_height size * 3 / 10 + i * line_spacing size.
Definition line_fits (size i : Z) : bool :=
  line_y size i + line_height size <? note_y size + note_height size.

(** The badge, the note card and the accent line of index [i], the
    latter for a given horizontal extent. *)
Definition badge (size : Z) : Fill :=
  {| shape := RoundedRectangle
                (margin size, margin size, size - margin size, size - margin size)
                (radius size);
     ink := CreateIcons.ios_blue |}.

Definition note_card (size : Z) : Fill :=
  {| shape := Rectangle
                (note_x size, note_y size,
                 note_x size + note_width size, note_y size + note_height size);
     ink := CreateIcons.white |}.

Definition accent_line (size line_x line_width i : Z) : Fill :=
  {| shape := Rectangle
                (line_x, line_y size i,
                 line_x + line_width, line_y size i + line_height size);
     ink := CreateIcons.ios_blue |}.

End Spec.

(** ** [main] *)

Module Script.
Import Pillow CreateIcons.

(** A file written by [Image.save]: the format asked for and the image. *)
Record File : Type := { format : string; content : Image }.

(** What the run can change: directories, files and standard output. *)
Record World : Type :=
  { dirs : gset string; files : gmap string File; stdout : list string }.

(** What the operating system decides: the working directory, and for
    each path whether creating the directory or writing the file fails. *)
Record Env : Type :=
  { cwd : string;
    makedirs_error : string -> option Exn;
    save_error : string -> option Exn }.

(** [os.path.join(a, b)] for a relative [b] and a non-empty [a] that does
    not end in a slash (POSIX). *)
Definition path_join (a b : string) : string := a +:+ "/" +:+ b.

Fixpoint ends_with_slash (s : string) : bool :=
  match s with
  | "" => false
  | String c s' =>
      match s' with
      | "" => Ascii.eqb c "/"%char
      | String _ _ => ends_with_slash s'
      end
  end.

(** [os.path.abspath(p)] for a relative [p] without dots: [p] joined to
    the working directory, which ends in a slash only when it is the
    root. *)
Definition abspath (env : Env) (p : string) : string :=
  if ends_with_slash (cwd env) then cwd env +:+ p else path_join (cwd env) p.

(** The directories on the way to [rest] below [done]: for ["a/b/c"] they
    are ["a"], ["a/b"] and ["a/b/c"] (a relative path without empty
    components). *)
Fixpoint lineage_from (done rest : string) : list string :=
  match rest with
  | "" => [done]
  | String c rest' =>
      if Ascii.eqb c "/"%char
      then done :: lineage_from (done +:+ "/") rest'
      else lineage_from (done +:+ String c "") rest'
  end.

Definition lineage (p : string) : list string := lineage_from "" p.

(** [os.makedirs(p, exist_ok=True)]: the directory [p] and every missing
    directory above it are created; a directory that exists is left as it
    is. *)
Definition makedirs (env : Env) (p : string) (w : World) : result World :=
  match makedirs_error env p with
  | Some e => Raise e
  | None =>
      Ok {| dirs := list_to_set (lineage p) ∪ dirs w; files := files w;
            stdout := stdout w |}
  end.

(** [icon.save(path, fmt)] *)
Definition save (env : Env) (icon : Image) (path fmt : string) (w : World)
    : result World :=
  match save_error env path with
  | Some e => Raise e
  | None =>
      Ok {| dirs := dirs w;
            files := <[path := {| format := fmt; content := icon |}]> (files w);
            stdout := stdout w |}
  end.

(** [print(line)] *)
Definition print (line : string) (w : World) : World :=
  {| dirs := dirs w; files := files w; stdout := stdout w ++ [line] |}.

Definition newline : string := String (Ascii.ascii_of_nat 10) "".

(* sizes = [16, 32, 48, 128] *)
Definition sizes : list Z := [16; 32; 48; 128].

(* icons_dir = os.path.join('extension', 'assets', 'icons') *)
Definition icons_dir : string :=
  path_join (path_join "extension" "assets") "icons".

(* f'icon{size}.png' *)
Definition icon_name (size : Z) : string := "icon" +:+ pretty size +:+ ".png".

(** The body of the [for] loop: one [try] statement. *)
Definition make_icon (env : Env) (icons_dir : string) (w : World) (size : Z)
    : World :=
  try_except
    (icon ← create_icon size;
     let icon_path := path_join icons_dir (icon_name size) in
     w ← save env icon icon_path "PNG" w;
     mret (print ("✓ Created " +:+ icon_name size) w))
    (fun e =>
       print ("✗ Failed to create " +:+ icon_name size +:+ ": " +:+ str_exn e) w).

Definition main (env : Env) (w : World) : result World :=
  (* Create icons directory *)
  w ← makedirs env icons_dir w;
  (* Create all required icon sizes *)
  w ← for_ sizes (fun w size => Ok (make_icon env icons_dir w size)) w;
  mret (print (newline +:+ "Icons saved to: " +:+ abspath env icons_dir) w).

(** The world before the run, and two operating systems to run in. *)
Definition empty_world : World := {| dirs := ∅; files := ∅; stdout := [] |}.

Definition env_ok : Env :=
  {| cwd := "/repo"; makedirs_error := fun _ => None; save_error := fun _ => None |}.

Definition env_icon32_fails : Env :=
  {| cwd := "/repo"; makedirs_error := fun _ => None;
     save_error := fun p =>
       if bool_decide (p = "extension/assets/icons/icon32.png")
       then Some (OSError "[Errno 28] No space left on device") else None |}.

(** *** What a run is expected to leave behind *)

Definition icon_path (size : Z) : string := path_join icons_dir (icon_name size).

(** The file that the iteration for [size] writes, if it writes one. *)
Definition written (env : Env) (size : Z) : option File :=
  match create_icon size, save_error env (icon_path size) with
  | Ok icon, None => Some {| format := "PNG"; content := icon |}
  | _, _ => None
  end.

(** The line that the iteration for [size] prints. *)
Definition report (env : Env) (size : Z) : string :=
  match create_icon size, save_error env (icon_path size) with
  | Ok _, None => "✓ Created " +:+ icon_name size
  | Raise e, _ | Ok _, Some e =>
      "✗ Failed to create " +:+ icon_name size +:+ ": " +:+ str_exn e
  end.

Definition final_line (env : Env) : string :=
  newline +:+ "Icons saved to: " +:+ abspath env icons_dir.

End Script.

(** ** Reading the layout of an icon *)

Module Layout.
Import Pillow.






(** The indices of the accent lines that [create_icon] paints. *)
Definition painted_lines (size : Z) : list Z :=
  if 32 <=? size then List.filter (Spec.line_fits size) (range 3) else [].

(** The icon with the given horizontal extent of its accent lines. *)
Definition icon (size lx lw : Z) : Image :=
  {| width := size; height := size; background := CreateIcons.transparent;
     painted := Spec.badge size :: Spec.note_card size
                :: map (Spec.accent_line size lx lw) (painted_lines size) |}.


End Layout.

(** * Facts about the binary64 model *)

Module Binary64Facts.
Import Binary64.

Lemma bit_length_spec a : 0 < a -> 2 ^ (bit_length a - 1) <= a < 2 ^ bit_length a.
Proof.
  intros Ha. unfold bit_length.
  destruct (Z.eqb_spec a 0) as [->|_]; [lia|].
  rewrite Z.abs_eq by lia.
  replace (Z.log2 a + 1 - 1) with (Z.log2 a) by lia.
  replace (Z.log2 a + 1) with (Z.succ (Z.log2 a)) by lia.
  apply Z.log2_spec; lia.
Qed.


Lemma bit_length_le a k : 0 <= a -> 0 <= k -> a < 2 ^ k -> bit_length a <= k.
Proof.
  intros Ha Hk Hlt.
  destruct (Z.eq_dec a 0) as [->|Hne]; [unfold bit_length; simpl; lia|].
  pose proof (bit_length_spec a ltac:(lia)) as [Hlo _].
  destruct (Z_le_gt_dec (bit_length a) k) as [|Hgt]; [assumption|exfalso].
  assert (2 ^ k <= 2 ^ (bit_length a - 1)) by (apply Z.pow_le_mono_r; lia).
  lia.
Qed.


(** [round_half_even] in terms of quotient and remainder. *)
Lemma round_half_even_cases a s :
  0 <= a -> 0 < s ->
  (round_half_even a s = a / 2 ^ s /\ a mod 2 ^ s <= 2 ^ (s - 1)) \/
  (round_half_even a s = a / 2 ^ s + 1 /\ 2 ^ (s - 1) <= a mod 2 ^ s).
Proof.
  intros Ha Hs. unfold round_half_even.
  rewrite Z.shiftr_div_pow2, !Z.shiftl_mul_pow2 by lia.
  rewrite Z.mul_1_l.
  assert (Hr : a - a / 2 ^ s * 2 ^ s = a mod 2 ^ s).
  { pose proof (Z.div_mod a (2 ^ s)). pose proof (Z.pow_pos_nonneg 2 s). lia. }
  rewrite Hr.
  destruct (Z.ltb_spec (2 ^ (s - 1)) (a mod 2 ^ s)); simpl; [right; lia|].
  destruct (Z.eqb_spec (a mod 2 ^ s) (2 ^ (s - 1))); simpl; [|left; lia].
  destruct (Z.odd (a / 2 ^ s)); [right|left]; lia.
Qed.


Lemma round_binary64_exact m e :
  0 <= m -> bit_length m <= prec -> emin <= e -> bit_length m + e <= emax ->
  round_binary64 m e = Finite m e.
Proof.
  intros Hm Hb He Hmax. unfold round_binary64.
  destruct (Z.leb_spec (Z.max (bit_length m - prec) (emin - e)) 0); [|lia].
  destruct (Z.ltb_spec emax (bit_length m + e)); [lia|reflexivity].
Qed.

Lemma round_binary64_round m e :
  0 < m -> prec < bit_length m -> emin - e <= bit_length m - prec ->
  bit_length (round_half_even m (bit_length m - prec)) + (e + (bit_length m - prec)) <= emax ->
  round_binary64 m e =
    Finite (round_half_even m (bit_length m - prec)) (e + (bit_length m - prec)).
Proof.
  intros Hm Hb He Hmax. unfold round_binary64.
  rewrite Z.max_l by lia.
  destruct (Z.leb_spec (bit_length m - prec) 0); [lia|].
  rewrite Z.sgn_pos, Z.abs_eq, Z.mul_1_l by lia.
  destruct (Z.ltb_spec emax
    (bit_length (round_half_even m (bit_length m - prec)) + (e + (bit_length m - prec))));
    [lia|reflexivity].
Qed.

Lemma float_of_int_small n :
  0 <= n < 2 ^ 53 -> float_of_int n = Ok (Finite n 0).
Proof.
  intros [Hn Hlt]. unfold float_of_int.
  pose proof (bit_length_le n 53 Hn ltac:(lia) Hlt).
  rewrite round_binary64_exact; unfold prec, emin, emax; trivial; lia.
Qed.

(** Rounding to a multiple of [2 ^ s] never passes a power of two. *)
Lemma round_half_even_le_pow2 a s k :
  0 <= a -> 0 < s -> s <= k -> a <= 2 ^ k ->
  round_half_even a s <= 2 ^ (k - s).
Proof.
  intros Ha Hs Hk Hle.
  assert (Hpow : 2 ^ k = 2 ^ (k - s) * 2 ^ s).
  { rewrite <- Z.pow_add_r by lia. f_equal. lia. }
  pose proof (Z.pow_pos_nonneg 2 s ltac:(lia) ltac:(lia)) as Hps.
  pose proof (Z.pow_pos_nonneg 2 (s - 1) ltac:(lia) ltac:(lia)) as Hph.
  pose proof (Z.div_mod a (2 ^ s) ltac:(lia)) as Hdm.
  pose proof (Z.mod_pos_bound a (2 ^ s) Hps) as Hmb.
  destruct (round_half_even_cases a s Ha Hs) as [[-> Hr]|[-> Hr]]; nia.
Qed.

Lemma round_half_even_nonneg a s : 0 <= a -> 0 < s -> 0 <= round_half_even a s.
Proof.
  intros Ha Hs.
  pose proof (Z.pow_pos_nonneg 2 s ltac:(lia) ltac:(lia)) as Hps.
  pose proof (Z.div_pos a (2 ^ s) Ha Hps).
  destruct (round_half_even_cases a s Ha Hs) as [[-> _]|[-> _]]; lia.
Qed.

Section IntMul.
(** [int(n * c)] where [c = C * 2 ^ (-E)] and [n] is small enough to be a
    double itself. *)
Variables n C E : Z.
Hypothesis Hn : 0 <= n < 2 ^ 53.
Hypothesis HC : 0 < C.
Hypothesis HE : 4 <= E <= 1074.

Let m := n * C.

Lemma int_mul_exact :
  bit_length m <= 53 -> int_mul n (Finite C (- E)) = Ok (m / 2 ^ E).
Proof.
  intros Hb. unfold int_mul. rewrite float_of_int_small by exact Hn.
  cbn [mbind result_bind fmul]. rewrite Z.add_0_l. fold m.
  assert (0 <= m) by (unfold m; nia).
  rewrite round_binary64_exact; unfold emin, emax, prec; try lia.
  cbn [int_of_float]. destruct (Z.leb_spec 0 (- E)); [lia|].
  rewrite Z.opp_involutive, Z.quot_div_nonneg; trivial.
  apply Z.pow_pos_nonneg; lia.
Qed.

Lemma int_mul_rounded :
  53 < bit_length m -> bit_length m - 53 < E ->
  int_mul n (Finite C (- E)) =
    Ok (round_half_even m (bit_length m - 53) / 2 ^ (E - (bit_length m - 53))).
Proof.
  intros Hb Hs. unfold int_mul. rewrite float_of_int_small by exact Hn.
  cbn [mbind result_bind fmul]. rewrite Z.add_0_l. fold m.
  assert (Hm : 0 < m).
  { destruct (Z.eq_dec m 0) as [H0|]; [|unfold m in *; nia].
    rewrite H0 in Hb. unfold bit_length in Hb. simpl in Hb. lia. }
  pose proof (bit_length_spec m Hm) as [_ Hhi].
  set (s := bit_length m - 53) in *.
  assert (Hq : round_half_even m s <= 2 ^ (bit_length m - s)).
  { apply round_half_even_le_pow2; try lia. }
  pose proof (round_half_even_nonneg m s ltac:(lia) ltac:(lia)) as Hq0.
  replace (bit_length m - s) with 53 in Hq by (unfold s; lia).
  assert (Hbq : bit_length (round_half_even m s) <= 54).
  { apply bit_length_le; lia. }
  rewrite round_binary64_round by (unfold emin, emax, prec; fold s; lia).
  unfold prec. fold s. cbn [int_of_float]. destruct (Z.leb_spec 0 (- E + s)); [lia|].
  replace (- (- E + s)) with (E - s) by lia.
  rewrite Z.quot_div_nonneg; trivial.
  apply Z.pow_pos_nonneg; lia.
Qed.

(** The product is truncated to [m / 2 ^ E] as long as its fractional part
    stays clear of the next integer by the rounding error. *)
Lemma int_mul_floor :
  m < 2 ^ (E + 50) -> m mod 2 ^ E + 2 ^ (E - 4) < 2 ^ E ->
  int_mul n (Finite C (- E)) = Ok (m / 2 ^ E).
Proof.
  intros Hlt Hfrac.
  assert (Hm : 0 <= m) by (unfold m; nia).
  destruct (Z_le_gt_dec (bit_length m) 53) as [Hb|Hb];
    [apply int_mul_exact; exact Hb|].
  pose proof (bit_length_le m (E + 50) Hm ltac:(lia) Hlt) as Hbl.
  rewrite int_mul_rounded by lia. f_equal.
  set (s := bit_length m - 53) in *.
  assert (Hs : 0 < s <= E - 3) by (unfold s; lia).
  set (t := E - s).
  assert (HPT : 2 ^ E = 2 ^ t * 2 ^ s).
  { rewrite <- Z.pow_add_r by (unfold t; lia). f_equal. unfold t. lia. }
  assert (Hhalf : 2 ^ s = 2 * 2 ^ (s - 1)).
  { rewrite <- Z.pow_succ_r by lia. f_equal. lia. }
  assert (Hs4 : 2 ^ (s - 1) <= 2 ^ (E - 4)) by (apply Z.pow_le_mono_r; lia).
  pose proof (Z.pow_pos_nonneg 2 s ltac:(lia) ltac:(lia)) as HP.
  pose proof (Z.pow_pos_nonneg 2 t ltac:(lia) ltac:(unfold t; lia)) as HT.
  assert (Hdiv : m / 2 ^ E = m / 2 ^ s / 2 ^ t).
  { rewrite HPT, Z.mul_comm, Z.div_div by lia. reflexivity. }
  rewrite Hdiv.
  destruct (round_half_even_cases m s Hm ltac:(lia)) as [[-> _]|[-> Hr]];
    [reflexivity|].
  (* rounded up: the quotient must not reach the next multiple of 2^t *)
  assert (Hmod : m mod 2 ^ E = 2 ^ s * ((m / 2 ^ s) mod 2 ^ t) + m mod 2 ^ s).
  { rewrite HPT, (Z.mul_comm (2 ^ t)). rewrite Z.rem_mul_r by lia. lia. }
  pose proof (Z.mod_pos_bound (m / 2 ^ s) (2 ^ t) HT) as Hg.
  pose proof (Z.div_mod (m / 2 ^ s) (2 ^ t) ltac:(lia)) as Hqg.
  set (q := m / 2 ^ s) in *. set (g := q mod 2 ^ t) in *.
  assert (Hg1 : g + 1 < 2 ^ t) by nia.
  symmetry. apply Z.div_unique with (r := g + 1); [lia|].
  lia.
Qed.

End IntMul.





(** On every operand up to 1024 the model computes what the Standard
    Library's specification of binary64 multiplication computes. *)
Lemma int_mul_agrees_with_SpecFloat :
  forallb (fun c => forallb (agrees_with_spec c) (range 1025))
    [f0_8; f0_3; f0_7; f0_15] = true.
Proof. vm_compute. reflexivity. Qed.

End Binary64Facts.

(** * Facts about [create_icon] *)

Module CreateIconsFacts.
Import Binary64 Binary64Facts Pillow CreateIcons.






Lemma new_negative size color :
  size < 0 ->
  new (size, size) color = Raise (ValueError "Width and height must be >= 0").
Proof.
  intros Hs. unfold new. cbn [fst snd].
  destruct (Z.ltb_spec size 0); [reflexivity|lia].
Qed.



Lemma note_width_bounds size : 4 <= size -> 0 <= note_width size <= size.
Proof.
  intros Hs. unfold note_width, note_margin.
  pose proof (Z.div_mod size 4 ltac:(lia)).
  pose proof (Z.mod_pos_bound size 4 ltac:(lia)). lia.
Qed.


(** *** Pixels *)

Lemma covers_inside `{Rasterizer} s x y :
  covers s x y = true -> inside (bbox s) x y = true.
Proof. destruct s; simpl; [apply rounded_cover_inside|trivial]. Qed.

Lemma fold_paint_missed `{Rasterizer} x y fills c :
  forallb (misses x y) fills = true -> fold_left (paint x y) fills c = c.
Proof.
  revert c. induction fills as [|f fills IH]; intros c Hall; [reflexivity|].
  simpl in Hall. apply andb_true_iff in Hall as [Hf Hall].
  simpl. rewrite IH by exact Hall. unfold paint.
  destruct (covers (shape f) x y) eqn:Hc; [|reflexivity].
  apply covers_inside in Hc. unfold misses in Hf. rewrite Hc in Hf. discriminate.
Qed.

(** A pixel that lies in no bounding box keeps the colour the image was
    created with. *)
Lemma getpixel_background `{Rasterizer} img x y :
  (0 <=? x) && (x <? width img) && (0 <=? y) && (y <? height img) = true ->
  forallb (misses x y) (painted img) = true ->
  getpixel img x y = Some (background img).
Proof.
  intros Hin Hall. unfold getpixel. rewrite Hin.
  rewrite fold_paint_missed by exact Hall. reflexivity.
Qed.

(** The four supported sizes all yield an icon of their size. *)
Lemma create_icon_supported size :
  In size Script.sizes ->
  exists img, create_icon size = Ok img /\ width img = size /\ height img = size.
Proof.
  intros Hin. simpl in Hin.
  repeat (destruct Hin as [<-|Hin];
          [eexists; split; [vm_compute; reflexivity|split; reflexivity]|]).
  destruct Hin.
Qed.

(** C8: for every supported size [s], [create_icon s] returns an image of
    width and height exactly [s]. *)
Theorem C8_dimensions :
  Forall (fun s => exists img,
            create_icon s = Ok img /\ width img = s /\ height img = s)
    Script.sizes.
Proof.
  repeat constructor; eexists; (split; [vm_compute; reflexivity|]);
    split; reflexivity.
Qed.

(** C7: for every supported size, the four corner pixels of the icon are
    fully transparent, however the rounded corners are rasterised: the
    badge keeps a margin and no fill reaches a corner. *)
Theorem C7_corners_transparent (R : Rasterizer) :
  Forall (fun s => exists img,
            create_icon s = Ok img /\
            Forall (fun xy => exists c,
                      getpixel img xy.1 xy.2 = Some c /\ alpha c = 0)
              (corners s))
    Script.sizes.
Proof.
  repeat constructor; eexists; (split; [vm_compute; reflexivity|]);
    repeat constructor; exists transparent; (split; [|reflexivity]);
    apply (getpixel_background (H := R)); vm_compute; reflexivity.
Qed.

(** C6: at each of the sizes 32, 48 and 128 the fit test passes for the
    line indices 0 and 1 and fails for index 2, so exactly two accent
    lines are painted; no supported size gets a third one. *)
Theorem C6_two_accent_lines :
  Forall (fun s =>
            line_fits s 0 = Ok true /\ line_fits s 1 = Ok true /\
            line_fits s 2 = Ok false /\
            exists img, create_icon s = Ok img /\
                        length (accent_lines img) = 2%nat)
    [32; 48; 128] /\
  Forall (fun s => exists img, create_icon s = Ok img /\
                               (length (accent_lines img) <= 2)%nat)
    Script.sizes.
Proof.
  split.
  - repeat constructor; try (vm_compute; reflexivity);
      eexists; (split; [vm_compute; reflexivity|]); vm_compute; reflexivity.
  - repeat constructor; eexists; (split; [vm_compute; reflexivity|]);
      vm_compute; lia.
Qed.

(** C1, refuted: at size 128 the fit test does not pass for every line
    index, and the icon does not show three blue bands across the card. *)
Lemma C1_third_line_does_not_fit :
  ~ (forall i, In i (range 3) -> line_fits 128 i = Ok true) /\
  ~ (exists img, create_icon 128 = Ok img /\
                 blue_bands (H := disc_rasterizer) img 64 38 89 = 3%nat).
Proof.
  split.
  - intros Hall. specialize (Hall 2 ltac:(vm_compute; tauto)).
    vm_compute in Hall. discriminate.
  - intros (img & Himg & Hbands). vm_compute in Himg.
    injection Himg as <-. vm_compute in Hbands. discriminate.
Qed.

(** C1, amended: at size 128 the fit test passes for the line indices 0
    and 1 and fails for index 2 (93 < 89 is false); exactly two accent
    lines are painted, and every column of the note card that crosses them
    shows exactly two blue bands, the other columns none. *)
Theorem C1_two_bands_at_128 (R : Rasterizer) :
  line_fits 128 0 = Ok true /\ line_fits 128 1 = Ok true /\
  line_fits 128 2 = Ok false /\
  note_y 128 = Ok 38 /\ note_height 128 = Ok 51 /\
  line_x 128 = Ok 41 /\ line_width 128 = Ok 44 /\
  exists img,
    create_icon 128 = Ok img /\
    length (accent_lines img) = 2%nat /\
    Forall (fun x => blue_bands img x 38 (38 + 51) = 2%nat)
      (interval 41 (41 + 44)) /\
    Forall (fun x => blue_bands img x 38 (38 + 51) = 0%nat)
      (interval 32 40 ++ interval 86 96).
Proof.
  repeat (split; [vm_compute; reflexivity|]).
  eexists. split; [vm_compute; reflexivity|].
  split; [vm_compute; reflexivity|].
  split; apply Forall_forall; intros x Hx; apply list_elem_of_In in Hx;
    vm_compute in Hx;
    repeat (destruct Hx as [<-|Hx]; [vm_compute; reflexivity|]);
    destruct Hx.
Qed.

(** C10: over the supported sizes, [margin], [note_margin], [note_width]
    and [note_height] do not decrease when the size grows. *)
Theorem C10_monotone_layout (s1 s2 : Z) :
  In s1 Script.sizes -> In s2 Script.sizes -> s1 <= s2 ->
  margin s1 <= margin s2 /\ note_margin s1 <= note_margin s2 /\
  note_width s1 <= note_width s2 /\
  exists h1 h2, note_height s1 = Ok h1 /\ note_height s2 = Ok h2 /\ h1 <= h2.
Proof.
  intros H1 H2 Hle. simpl in H1, H2.
  assert (Hh : forall s, In s Script.sizes ->
             exists h, note_height s = Ok h /\ h = Spec.note_height s).
  { intros s Hs. simpl in Hs.
    repeat (destruct Hs as [<-|Hs]; [eexists; split; vm_compute; reflexivity|]).
    destruct Hs. }
  destruct (Hh s1 H1) as (h1 & Hh1 & ->), (Hh s2 H2) as (h2 & Hh2 & ->).
  repeat (destruct H1 as [<-|H1]; [|]); try destruct H1;
    repeat (destruct H2 as [<-|H2]; [|]); try destruct H2;
    try lia;
    (repeat split; [vm_compute; discriminate..|]);
    eexists _, _; (split; [eassumption|]); (split; [eassumption|]);
    vm_compute; discriminate.
Qed.

Lemma C10_monotone_layout_witness :
  margin 16 <= margin 128 /\ note_margin 16 <= note_margin 128 /\
  note_width 16 <= note_width 128 /\
  exists h1 h2, note_height 16 = Ok h1 /\ note_height 128 = Ok h2 /\ h1 <= h2.
Proof.
  apply (C10_monotone_layout 16 128); [simpl; tauto | simpl; tauto | lia].
Defined.





















End CreateIconsFacts.

(** * Facts about [main] *)

Module ScriptFacts.
Import Pillow CreateIcons Script.

Lemma make_icon_spec env w size :
  make_icon env icons_dir w size =
    print (report env size)
      {| dirs := dirs w;
         files := match written env size with
                  | Some f => <[icon_path size := f]> (files w)
                  | None => files w
                  end;
         stdout := stdout w |}.
Proof.
  unfold make_icon, report, written, save. fold (icon_path size).
  destruct (create_icon size) as [icon|e]; cbn [mbind result_bind try_except].
  - destruct (save_error env (icon_path size)); reflexivity.
  - destruct w; reflexivity.
Qed.

Lemma icon_paths :
  map icon_path sizes =
    ["extension/assets/icons/icon16.png"; "extension/assets/icons/icon32.png";
     "extension/assets/icons/icon48.png"; "extension/assets/icons/icon128.png"].
Proof. vm_compute. reflexivity. Qed.

Lemma icon_path_inj s1 s2 :
  In s1 sizes -> In s2 sizes -> icon_path s1 = icon_path s2 -> s1 = s2.
Proof.
  intros H1 H2. simpl in H1, H2.
  repeat (destruct H1 as [<-|H1]; [|]); try destruct H1;
    repeat (destruct H2 as [<-|H2]; [|]); try destruct H2;
    vm_compute; intros H; first [reflexivity | discriminate H].
Qed.

(** The directories that [os.makedirs(icons_dir)] makes sure of. *)
Lemma lineage_icons_dir :
  lineage icons_dir =
    ["extension"; "extension/assets"; "extension/assets/icons"].
Proof. vm_compute. reflexivity. Qed.

Lemma icons_dir_made (d : gset string) :
  icons_dir ∈ list_to_set (C := gset string) (lineage icons_dir) ∪ d.
Proof.
  apply elem_of_union_l, elem_of_list_to_set. rewrite lineage_icons_dir.
  apply list_elem_of_In. right. right. left. vm_compute. reflexivity.
Qed.

(** What the whole run does, for any operating system that lets the
    directory be created. *)
Lemma main_run env w0 :
  makedirs_error env icons_dir = None ->
  main env w0 =
    Ok {| dirs := list_to_set (lineage icons_dir) ∪ dirs w0;
          files := fold_left (fun fs size =>
                     match written env size with
                     | Some f => <[icon_path size := f]> fs
                     | None => fs
                     end) sizes (files w0);
          stdout := stdout w0 ++ map (report env) sizes ++ [final_line env] |}.
Proof.
  intros Hmk. unfold main, makedirs. rewrite Hmk.
  cbn [mbind result_bind for_ sizes]. rewrite !make_icon_spec.
  unfold print. cbn [dirs files stdout mret result_ret fold_left map].
  rewrite <- !app_assoc. reflexivity.
Qed.

Lemma fold_written_lookup env (l : list Z) (fs : gmap string File) p :
  (forall size, In size l -> icon_path size <> p) ->
  fold_left (fun fs size =>
     match written env size with
     | Some f => <[icon_path size := f]> fs
     | None => fs
     end) l fs !! p = fs !! p.
Proof.
  revert fs. induction l as [|s l IH]; intros fs Hne; [reflexivity|].
  cbn [fold_left]. rewrite IH by (intros; apply Hne; right; assumption).
  destruct (written env s); [|reflexivity].
  apply lookup_insert_ne. apply Hne. left. reflexivity.
Qed.

Lemma fold_written_lookup_in env (l : list Z) (fs : gmap string File) size :
  NoDup (map icon_path l) -> In size l ->
  fold_left (fun fs size =>
     match written env size with
     | Some f => <[icon_path size := f]> fs
     | None => fs
     end) l fs !! icon_path size =
  match written env size with
  | Some f => Some f
  | None => fs !! icon_path size
  end.
Proof.
  revert fs. induction l as [|s l IH]; intros fs Hnd Hin; [destruct Hin|].
  cbn [map] in Hnd. apply NoDup_cons in Hnd as [Hs Hnd].
  cbn [fold_left]. destruct Hin as [->|Hin].
  - rewrite fold_written_lookup.
    + destruct (written env size); [apply lookup_insert_eq|reflexivity].
    + intros s' Hs' Heq. apply Hs. rewrite <- Heq.
      apply list_elem_of_In, in_map, Hs'.
  - rewrite IH by assumption.
    destruct (written env size); [reflexivity|].
    destruct (written env s); [|reflexivity].
    apply lookup_insert_ne. intros Heq. apply Hs. rewrite Heq.
    apply list_elem_of_In, in_map, Hin.
Qed.

Lemma icon_paths_NoDup : NoDup (map icon_path sizes).
Proof. rewrite icon_paths. apply (bool_decide_unpack _). vm_compute. exact I. Qed.

Lemma written_all_ok env size :
  In size sizes -> save_error env (icon_path size) = None ->
  exists icon, create_icon size = Ok icon /\
               written env size = Some {| format := "PNG"; content := icon |}.
Proof.
  intros Hin Hok. unfold written. rewrite Hok.
  destruct (CreateIconsFacts.create_icon_supported size Hin) as (icon & -> & _).
  exists icon. split; reflexivity.
Qed.

(** C9: once the directory exists, [main] never aborts: it reports on each
    of the sizes 16, 32, 48, 128 exactly once and in this order, a size
    whose icon cannot be written gets its failure line and leaves its file
    as it was, and every other size is written all the same; a run in which
    some icons are written and another is not is reachable. *)
Theorem C9_failures_are_local :
  (forall env w0,
     makedirs_error env icons_dir = None ->
     exists w,
       main env w0 = Ok w /\
       stdout w = stdout w0 ++ map (report env) sizes ++ [final_line env] /\
       forall size, In size sizes ->
         files w !! icon_path size =
           match written env size with
           | Some f => Some f
           | None => files w0 !! icon_path size
           end) /\
  (exists w,
     main env_icon32_fails empty_world = Ok w /\
     stdout w =
       ["✓ Created icon16.png";
        "✗ Failed to create icon32.png: [Errno 28] No space left on device";
        "✓ Created icon48.png"; "✓ Created icon128.png";
        final_line env_icon32_fails] /\
     files w !! icon_path 32 = None /\
     Forall (fun size => is_Some (files w !! icon_path size)) [16; 48; 128]).
Proof.
  split.
  - intros env w0 Hmk. eexists. split; [apply main_run; exact Hmk|].
    cbn [stdout files]. split; [reflexivity|].
    intros size Hin. apply fold_written_lookup_in; [apply icon_paths_NoDup|exact Hin].
  - eexists. split; [apply main_run; reflexivity|].
    cbn [stdout files]. split; [vm_compute; reflexivity|].
    split; [vm_compute; reflexivity|].
    repeat constructor; vm_compute; eexists; reflexivity.
Qed.

(** C3, refuted: after a run in which every call succeeds, no file
    [assets/icons/icon<size>.png] exists; the four icons are in
    [extension/assets/icons]. *)
Lemma C3_not_in_assets_icons :
  exists w,
    main env_ok empty_world = Ok w /\
    Forall (fun size =>
              files w !! ("assets/icons/" +:+ icon_name size) = None /\
              is_Some (files w !! ("extension/assets/icons/" +:+ icon_name size)))
      sizes.
Proof.
  eexists. split; [apply main_run; reflexivity|].
  cbn [files]. repeat constructor; vm_compute; try reflexivity; eexists; reflexivity.
Qed.

(** C3, amended: when the operating system lets every call succeed, [main]
    writes exactly four files, [icon16.png], [icon32.png], [icon48.png] and
    [icon128.png], into the directory [extension/assets/icons] relative to
    the working directory: each holds the PNG of the icon of its size, and
    no other path of the file system changes. *)
Theorem C3_files_written (env : Env) (w0 : World) :
  makedirs_error env icons_dir = None ->
  (forall size, In size sizes -> save_error env (icon_path size) = None) ->
  exists w,
    main env w0 = Ok w /\
    map icon_path sizes =
      ["extension/assets/icons/icon16.png"; "extension/assets/icons/icon32.png";
       "extension/assets/icons/icon48.png"; "extension/assets/icons/icon128.png"] /\
    (forall size, In size sizes ->
       exists icon, create_icon size = Ok icon /\
                    files w !! icon_path size =
                      Some {| format := "PNG"; content := icon |}) /\
    (forall p, ~ In p (map icon_path sizes) -> files w !! p = files w0 !! p) /\
    icons_dir ∈ dirs w.
Proof.
  intros Hmk Hsave. eexists. split; [apply main_run; exact Hmk|].
  cbn [files dirs]. split; [exact icon_paths|]. split; [|split].
  - intros size Hin.
    destruct (written_all_ok env size Hin (Hsave size Hin)) as (icon & Hicon & Hw).
    exists icon. split; [exact Hicon|].
    rewrite fold_written_lookup_in by (trivial; apply icon_paths_NoDup).
    rewrite Hw. reflexivity.
  - intros p Hp. apply fold_written_lookup.
    intros size Hin Heq. apply Hp. rewrite <- Heq. apply in_map. exact Hin.
  - apply icons_dir_made.
Qed.

Lemma C3_files_written_witness :
  makedirs_error env_ok icons_dir = None /\
  (forall size, In size sizes -> save_error env_ok (icon_path size) = None) /\
  exists w,
    main env_ok empty_world = Ok w /\
    map icon_path sizes =
      ["extension/assets/icons/icon16.png"; "extension/assets/icons/icon32.png";
       "extension/assets/icons/icon48.png"; "extension/assets/icons/icon128.png"] /\
    (forall size, In size sizes ->
       exists icon, create_icon size = Ok icon /\
                    files w !! icon_path size =
                      Some {| format := "PNG"; content := icon |}) /\
    (forall p, ~ In p (map icon_path sizes) ->
       files w !! p = files empty_world !! p) /\
    icons_dir ∈ dirs w.
Proof.
  split; [reflexivity|]. split; [intros size _; reflexivity|].
  exact (C3_files_written env_ok empty_world eq_refl (fun _ _ => eq_refl)).
Defined.

End ScriptFacts.

(** * More facts about [create_icon]: the layout and the pixels *)

Module LayoutFacts.
Import Binary64 Binary64Facts Pillow CreateIcons CreateIconsFacts Layout.

(** [int(n * c)] is the floor of the exact product of [n] and the double
    [c], or one more. *)
Lemma int_mul_bounds n C E :
  0 <= n < 2 ^ 53 -> 0 < C -> 4 <= E <= 1074 -> n * C < 2 ^ (E + 50) ->
  exists r, int_mul n (Finite C (- E)) = Ok r /\
            n * C / 2 ^ E <= r <= n * C / 2 ^ E + 1.
Proof.
  intros Hn HC HE Hlt.
  assert (Hm : 0 <= n * C) by nia.
  destruct (Z_le_gt_dec (bit_length (n * C)) 53) as [Hb|Hb].
  - eexists. split; [apply int_mul_exact; assumption|lia].
  - pose proof (bit_length_le (n * C) (E + 50) Hm ltac:(lia) Hlt) as Hbl.
    eexists. split; [apply int_mul_rounded; trivial; lia|].
    set (s := bit_length (n * C) - 53) in *.
    assert (Hs : 0 < s <= E - 3) by (unfold s; lia).
    set (t := E - s).
    assert (HPT : 2 ^ E = 2 ^ t * 2 ^ s).
    { rewrite <- Z.pow_add_r by (unfold t; lia). f_equal; unfold t; lia. }
    pose proof (Z.pow_pos_nonneg 2 s ltac:(lia) ltac:(lia)) as HP.
    pose proof (Z.pow_pos_nonneg 2 t ltac:(lia) ltac:(unfold t; lia)) as HT.
    assert (Hdiv : n * C / 2 ^ E = n * C / 2 ^ s / 2 ^ t).
    { rewrite Z.div_div, HPT by lia. f_equal; lia. }
    rewrite Hdiv.
    destruct (round_half_even_cases (n * C) s Hm ltac:(lia)) as [[-> _]|[-> _]];
      [lia|].
    set (q := n * C / 2 ^ s).
    split.
    + apply Z.div_le_mono; lia.
    + assert (H1 : (q + 1) / 2 ^ t <= (q + 1 * 2 ^ t) / 2 ^ t)
        by (apply Z.div_le_mono; lia).
      rewrite Z.div_add in H1 by lia. lia.
Qed.

(** Quotient and remainder of a division by a positive constant, for [lia]. *)
Ltac euclid a b :=
  let Hq := fresh "Hq" in
  let Hr := fresh "Hr" in
  pose proof (Z.div_mod a b ltac:(lia)) as Hq;
  pose proof (Z.mod_pos_bound a b ltac:(lia)) as Hr.



































(** X1: below 4 [create_icon] returns no image.  A negative size is
    refused by [Image.new]; at the sizes 0, 1, 2 and 3 the first drawing
    call that is handed an inverted box raises [ValueError]. *)
Theorem create_icon_below_4 (size : Z) :
  size < 4 ->
  create_icon size =
    Raise (ValueError (if size <? 0
                       then "Width and height must be >= 0"
                       else "x1 must be greater than or equal to x0")).
Proof.
  intros Hs. unfold create_icon.
  destruct (Z.ltb_spec size 0) as [Hneg|Hpos].
  - rewrite new_negative by exact Hneg. reflexivity.
  - assert (Hsz : size = 0 \/ size = 1 \/ size = 2 \/ size = 3) by lia.
    destruct Hsz as [-> | [-> | [-> | ->]]]; vm_compute; reflexivity.
Qed.

Lemma create_icon_below_4_witness :
  2 < 4 /\
  create_icon 2 = Raise (ValueError "x1 must be greater than or equal to x0").
Proof.
  assert (H : 2 < 4) by reflexivity.
  split; [exact H | exact (create_icon_below_4 2 H)].
Defined.

(** [int(w * 0.7)] is the floor of [7 w / 10] or, when that is an integer,
    possibly one less: the double [0.7] lies below seven tenths. *)
Lemma int_mul_0_7 w :
  0 <= w < 2 ^ 50 ->
  exists r, int_mul w f0_7 = Ok r /\ w * 7 / 10 - 1 <= r <= w * 7 / 10.
Proof.
  intros Hw. change f0_7 with (Finite 6305039478318694 (Z.opp 53)).
  euclid (w * 7) 10.
  set (k := w * 7 / 10) in *. set (r := (w * 7) mod 10) in *.
  set (m := w * 6305039478318694).
  destruct (Z.eq_dec r 0) as [Hr0|Hr0].
  - destruct (Z.eq_dec w 0) as [->|Hw0]; [exists 0; split; [reflexivity|lia]|].
    destruct (int_mul_bounds w 6305039478318694 53) as (x & Hx & Hb); try lia.
    exists x. split; [exact Hx|]. fold m in Hb.
    euclid m (2 ^ 53). unfold m in *. lia.
  - assert (Hdiv : m / 2 ^ 53 = k).
    { symmetry. apply Z.div_unique with (r := m - 2 ^ 53 * k); unfold m; lia. }
    assert (Hmod : m mod 2 ^ 53 = m - 2 ^ 53 * k).
    { symmetry. apply Z.mod_unique with (q := k); unfold m; lia. }
    exists k. split; [|lia].
    rewrite int_mul_floor; fold m; rewrite ?Hdiv, ?Hmod;
      first [reflexivity | unfold m; lia].
Qed.

(** X8: the width of the accent lines, [int(note_width * 0.7)], is the
    floor of seven tenths of the note width or one pixel less, never
    more. *)
Theorem line_width_bounds (size : Z) :
  4 <= size < 2 ^ 50 ->
  exists lw,
    line_width size = Ok lw /\
    note_width size * 7 / 10 - 1 <= lw <= note_width size * 7 / 10.
Proof.
  intros Hs. pose proof (note_width_bounds size ltac:(lia)) as Hw.
  apply int_mul_0_7. lia.
Qed.

Lemma line_width_bounds_witness :
  4 <= 180 < 2 ^ 50 /\
  exists lw,
    line_width 180 = Ok lw /\
    note_width 180 * 7 / 10 - 1 <= lw <= note_width 180 * 7 / 10.
Proof.
  assert (H : 4 <= 180 < 2 ^ 50) by (split; vm_compute; [discriminate|reflexivity]).
  split; [exact H | exact (line_width_bounds 180 H)].
Defined.

End LayoutFacts.

(** * More facts about [main] *)

Module RunFacts.
Import Pillow CreateIcons Script ScriptFacts.

Lemma string_length_app (s1 s2 : string) :
  String.length (s1 +:+ s2) = (String.length s1 + String.length s2)%nat.
Proof.
  induction s1 as [|a s1 IH]; [reflexivity|]. simpl. rewrite IH. reflexivity.
Qed.

Lemma app_inv_tail_string (s1 s2 t : string) :
  s1 +:+ t = s2 +:+ t -> s1 = s2.
Proof.
  revert s2. induction s1 as [|a s1 IH]; intros [|b s2] Heq.
  - reflexivity.
  - apply (f_equal String.length) in Heq. rewrite !string_length_app in Heq.
    cbn [String.length] in Heq. lia.
  - apply (f_equal String.length) in Heq. rewrite !string_length_app in Heq.
    cbn [String.length] in Heq. lia.
  - change (String a (s1 +:+ t) = String b (s2 +:+ t)) in Heq.
    injection Heq as -> Heq. f_equal. apply IH. exact Heq.
Qed.

(** X9: icons of different sizes are written to different paths, so that
    no icon overwrites another, whatever the sizes. *)
Theorem icon_path_injective (s1 s2 : Z) :
  s1 <> s2 -> icon_path s1 <> icon_path s2.
Proof.
  unfold icon_path, path_join, icon_name. intros Hne Heq. apply Hne.
  do 3 apply String.app_inj in Heq.
  apply app_inv_tail_string in Heq. apply (inj pretty). exact Heq.
Qed.

Lemma icon_path_injective_witness :
  16 <> 1600 /\ icon_path 16 <> icon_path 1600.
Proof.
  assert (H : 16 <> 1600) by discriminate.
  split; [exact H | exact (icon_path_injective 16 1600 H)].
Defined.

(** X11: whatever fails in the loop, [main] leaves every path other than
    the four icon paths as it was, adds no directory but [extension],
    [extension/assets] and [extension/assets/icons], and makes exactly
    five calls of [print]. *)
Theorem main_touches_only_icons (env : Env) (w0 : World) :
  makedirs_error env icons_dir = None ->
  exists w,
    main env w0 = Ok w /\
    dirs w =
      {["extension"; "extension/assets"; "extension/assets/icons"]} ∪ dirs w0 /\
    (forall p, (forall size, In size sizes -> icon_path size <> p) ->
               files w !! p = files w0 !! p) /\
    length (stdout w) = (length (stdout w0) + 5)%nat.
Proof.
  intros Hmk. eexists. split; [apply main_run; exact Hmk|].
  cbn [dirs files stdout]. split; [|split].
  - rewrite lineage_icons_dir. cbn [list_to_set].
    rewrite (right_id_L ∅ (∪)), !(assoc_L (∪)). reflexivity.
  - intros p Hp. apply fold_written_lookup. exact Hp.
  - rewrite !length_app, length_map. reflexivity.
Qed.

Lemma main_touches_only_icons_witness :
  makedirs_error env_icon32_fails icons_dir = None /\
  exists w,
    main env_icon32_fails empty_world = Ok w /\
    dirs w =
      {["extension"; "extension/assets"; "extension/assets/icons"]}
      ∪ dirs empty_world /\
    (forall p, (forall size, In size sizes -> icon_path size <> p) ->
               files w !! p = files empty_world !! p) /\
    length (stdout w) = (length (stdout empty_world) + 5)%nat.
Proof.
  split; [reflexivity|].
  exact (main_touches_only_icons env_icon32_fails empty_world eq_refl).
Defined.

(** X12: running [main] a second time in the same environment leaves the
    directories and the files as the first run left them, and prints the
    same five lines again. *)
Theorem main_twice (env : Env) (w0 : World) :
  makedirs_error env icons_dir = None ->
  exists w1 w2,
    main env w0 = Ok w1 /\ main env w1 = Ok w2 /\
    dirs w2 = dirs w1 /\ files w2 = files w1 /\
    stdout w2 = stdout w1 ++ map (report env) sizes ++ [final_line env].
Proof.
  intros Hmk. eexists _, _. split; [apply main_run; exact Hmk|].
  split; [apply main_run; exact Hmk|].
  cbn [dirs files stdout].
  split; [rewrite (assoc_L (∪)), (idemp_L (∪)); reflexivity|].
  split; [|reflexivity].
  apply map_eq. intros p.
  destruct (in_dec String.string_dec p (map icon_path sizes)) as [Hin|Hout].
  - apply in_map_iff in Hin as (size & <- & Hin).
    rewrite !fold_written_lookup_in by (trivial; apply icon_paths_NoDup).
    destruct (written env size); reflexivity.
  - rewrite fold_written_lookup; [reflexivity|].
    intros size Hin Heq. apply Hout. rewrite <- Heq. apply in_map. exact Hin.
Qed.

Lemma main_twice_witness :
  makedirs_error env_icon32_fails icons_dir = None /\
  exists w1 w2,
    main env_icon32_fails empty_world = Ok w1 /\
    main env_icon32_fails w1 = Ok w2 /\
    dirs w2 = dirs w1 /\ files w2 = files w1 /\
    stdout w2 =
      stdout w1 ++ map (report env_icon32_fails) sizes
        ++ [final_line env_icon32_fails].
Proof.
  split; [reflexivity|].
  exact (main_twice env_icon32_fails empty_world eq_refl).
Defined.

End RunFacts.
